(** * Retirement plan calculator (calculations.py): model and properties

    The calculation engine of the repository is embedded function by
    function.  Python [int] values are [Z]; Python [float] values are
    modelled as exact rationals [Q] (the idealisation of binary64 in which
    no operation rounds and nothing overflows), compared with [==].  The
    exceptions the arithmetic can raise in that setting (a float division by
    zero, zero raised to a negative power) are kept, in a small error
    monad; rounding errors, infinities, NaN and the [OverflowError] of [**]
    are outside the model. *)

From Stdlib Require Import ZArith QArith Qabs Qround Qpower Qfield Qminmax.
From Stdlib Require Import Lia Lqa Bool List String Ascii DecimalString Sorted.
Import ListNotations.

Local Open Scope Q_scope.

(** ** Exceptions *)

Inductive exn : Set := ZeroDivisionError.

Inductive result (A : Type) : Type :=
| Ok (a : A)
| Raise (e : exn).

Arguments Ok {A} a.
Arguments Raise {A} e.

Definition bind {A B : Type} (c : result A) (k : A -> result B) : result B :=
  match c with
  | Ok a => k a
  | Raise e => Raise e
  end.

Notation "x <- c ;; k" := (bind c (fun x => k))
  (at level 61, c at next level, right associativity).

(** ** Python arithmetic on numbers *)

Module Py.

(** [x < y] as a test. *)
Definition ltb (x y : Q) : bool := negb (Qle_bool y x).

(** [x <= y] as a test. *)
Definition leb (x y : Q) : bool := Qle_bool x y.

(** [x == y] as a test. *)
Definition eqb (x y : Q) : bool := Qeq_bool x y.

(** [max(a, b)]: the first argument unless the second is greater. *)
Definition max (a b : Q) : Q := if ltb a b then b else a.

(** [a / b] on floats. *)
Definition truediv (a b : Q) : result Q :=
  if eqb b 0 then Raise ZeroDivisionError else Ok (a / b).

(** [x ** n] for a float [x] and an int [n]. *)
Definition pow (x : Q) (n : Z) : result Q :=
  if (n <? 0)%Z && eqb x 0 then Raise ZeroDivisionError else Ok (x ^ n).

(** [round(x)]: the nearest integer, a tie going to the even one. *)
Definition round (x : Q) : Z :=
  let f := Qfloor x in
  let d := x - inject_Z f in
  if ltb d (1 # 2) then f
  else if ltb (1 # 2) d then (f + 1)%Z
  else if Z.even f then f else (f + 1)%Z.

(** [c.lower()] on one character; only the ASCII letters change, which is
    all that a comparison with the ASCII keys of [rates] can see. *)
Definition lower_ascii (c : ascii) : ascii :=
  let n := nat_of_ascii c in
  if ((65 <=? n) && (n <=? 90))%nat then ascii_of_nat (n + 32) else c.

(** [s.lower()]. *)
Fixpoint lower (s : string) : string :=
  match s with
  | EmptyString => EmptyString
  | String c s' => String (lower_ascii c) (lower s')
  end.

(** [d.get(key, default)] on a dict written as its list of items. *)
Fixpoint dict_get {V : Type} (d : list (string * V)) (key : string) (default : V) : V :=
  match d with
  | [] => default
  | (k, v) :: d' => if String.eqb k key then v else dict_get d' key default
  end.

(** [str(n)] for an int. *)
Definition str_int (n : Z) : string := NilZero.string_of_int (Z.to_int n).

(** [format(x, ".0f")]: the sign of [x], then its magnitude rounded to an
    integer. *)
Definition format_0f (x : Q) : string :=
  if ltb x 0 then String "-" (str_int (round (Qabs x)))
  else str_int (round x).

End Py.

(** ** Data model *)

Record RetirementInputs : Type := mkInputs {
  current_age : Z;
  retirement_age : Z;
  life_expectancy : Z;
  current_annual_expenses : Q;
  current_investments : Q;
  current_annual_income : Q;
  risk_profile : string;
  dependents : string;
  inflation_rate : Q
}.

Record RetirementResult : Type := mkResult {
  res_current_age : Z;
  res_retirement_age : Z;
  res_life_expectancy : Z;
  years_to_retirement : Z;
  retirement_duration : Z;
  res_current_annual_expenses : Q;
  future_annual_expenses : Q;
  corpus_required : Q;
  future_investment_value : Q;
  corpus_gap : Q;
  monthly_savings_required : Q;
  monthly_savings_rounded : Q;
  expected_return_rate : Q;
  res_inflation_rate : Q;
  res_risk_profile : string;
  res_current_annual_income : Q;
  res_dependents : string;
  income_expense_flag : bool;
  assumptions : list string
}.

(** ** The calculator *)

Definition rates : list (string * Q) :=
  [ ("conservative"%string, 8 # 100);
    ("moderate"%string, 12 # 100);
    ("balanced"%string, 12 # 100);
    ("aggressive"%string, 15 # 100) ].

Definition get_return_rate (risk_profile : string) : Q :=
  Py.dict_get rates (Py.lower risk_profile) (12 # 100).

Definition calculate_future_value (present_value rate : Q) (years : Z) : result Q :=
  if (years <=? 0)%Z then Ok present_value
  else
    p <- Py.pow (1 + rate) years ;;
    Ok (present_value * p).

Definition calculate_corpus_for_retirement
    (annual_expense_at_retirement return_rate inflation_rate : Q)
    (retirement_duration : Z) : result Q :=
  if (retirement_duration <=? 0)%Z then Ok 0
  else
    let g := inflation_rate in
    let r := return_rate in
    let n := retirement_duration in
    let pmt := annual_expense_at_retirement in
    corpus <-
      (if Py.ltb (Qabs (r - g)) (1 # 10000) then
         Py.truediv (pmt * inject_Z n) (1 + r)
       else
         q <- Py.truediv (1 + g) (1 + r) ;;
         p <- Py.pow q n ;;
         Py.truediv (pmt * (1 - p)) (r - g)) ;;
    Ok (Py.max 0 corpus).

Definition calculate_monthly_sip (future_value annual_rate : Q) (years : Z) : result Q :=
  if (years <=? 0)%Z then Ok 0
  else if Py.leb future_value 0 then Ok 0
  else
    monthly_rate <- Py.truediv annual_rate 12 ;;
    let months := (years * 12)%Z in
    if Py.eqb monthly_rate 0 then Py.truediv future_value (inject_Z months)
    else
      p <- Py.pow (1 + monthly_rate) months ;;
      f <- Py.truediv monthly_rate (p - 1) ;;
      let pmt := future_value * f in
      Ok pmt.

Definition to_nearest_default : Z := 500.

Definition round_to_clean_figure (amount : Q) (to_nearest : Z) : result Q :=
  if Py.leb amount 0 then Ok 0
  else
    let to_nearest := if Py.ltb 50000 amount then 1000%Z else to_nearest in
    x <- Py.truediv amount (inject_Z to_nearest) ;;
    Ok (inject_Z (Py.round x * to_nearest)).

Definition calculate_retirement_plan (inputs : RetirementInputs) : result RetirementResult :=
  let years_to_retirement := (retirement_age inputs - current_age inputs)%Z in
  let retirement_duration := (life_expectancy inputs - retirement_age inputs)%Z in
  let expected_return := get_return_rate (risk_profile inputs) in
  future_annual_expenses <-
    calculate_future_value (current_annual_expenses inputs) (inflation_rate inputs)
      years_to_retirement ;;
  corpus_required <-
    calculate_corpus_for_retirement future_annual_expenses expected_return
      (inflation_rate inputs) retirement_duration ;;
  future_investment_value <-
    calculate_future_value (current_investments inputs) expected_return
      years_to_retirement ;;
  let corpus_gap := Py.max 0 (corpus_required - future_investment_value) in
  monthly_savings <-
    calculate_monthly_sip corpus_gap expected_return years_to_retirement ;;
  monthly_savings_rounded <- round_to_clean_figure monthly_savings to_nearest_default ;;
  let income_expense_flag :=
    Py.ltb 0 (current_annual_income inputs)
    && Py.ltb (current_annual_income inputs) (current_annual_expenses inputs) in
  let assumptions :=
    [ ("Inflation rate: " ++ Py.format_0f (inflation_rate inputs * 100)
         ++ "% per annum (locked)")%string;
      ("Expected investment return: " ++ Py.format_0f (expected_return * 100)
         ++ "% per annum (" ++ risk_profile inputs ++ " profile)")%string;
      ("Life expectancy: " ++ Py.str_int (life_expectancy inputs) ++ " years")%string;
      ("Same return rate (" ++ Py.format_0f (expected_return * 100)
         ++ "%) applied pre- and post-retirement")%string;
      "Constant monthly SIP (no step-ups)"%string;
      "No tax implications considered"%string;
      "No product or fund recommendations included"%string;
      "Figures are planning-level estimates, not precise forecasts"%string ] in
  Ok {| res_current_age := current_age inputs;
        res_retirement_age := retirement_age inputs;
        res_life_expectancy := life_expectancy inputs;
        years_to_retirement := years_to_retirement;
        retirement_duration := retirement_duration;
        res_current_annual_expenses := current_annual_expenses inputs;
        future_annual_expenses := future_annual_expenses;
        corpus_required := corpus_required;
        future_investment_value := future_investment_value;
        corpus_gap := corpus_gap;
        monthly_savings_required := monthly_savings;
        monthly_savings_rounded := monthly_savings_rounded;
        expected_return_rate := expected_return;
        res_inflation_rate := inflation_rate inputs;
        res_risk_profile := risk_profile inputs;
        res_current_annual_income := current_annual_income inputs;
        res_dependents := dependents inputs;
        income_expense_flag := income_expense_flag;
        assumptions := assumptions |}.

Definition calculate_whatif_scenario (base_inputs : RetirementInputs)
    (new_retirement_age : Z) : result RetirementResult :=
  let whatif_inputs :=
    {| current_age := current_age base_inputs;
       retirement_age := new_retirement_age;
       life_expectancy := life_expectancy base_inputs;
       current_annual_expenses := current_annual_expenses base_inputs;
       current_investments := current_investments base_inputs;
       current_annual_income := current_annual_income base_inputs;
       risk_profile := risk_profile base_inputs;
       dependents := dependents base_inputs;
       inflation_rate := inflation_rate base_inputs |} in
  calculate_retirement_plan whatif_inputs.

(** The scenario of the module's self-test. *)
Definition test_inputs : RetirementInputs :=
  {| current_age := 35;
     retirement_age := 60;
     life_expectancy := 85;
     current_annual_expenses := 600000;
     current_investments := 500000;
     current_annual_income := 1200000;
     risk_profile := "moderate";
     dependents := "self_spouse";
     inflation_rate := 6 # 100 |}.




(** An input record with a very small need. *)
Definition small_need_inputs : RetirementInputs :=
  {| current_age := 59;
     retirement_age := 60;
     life_expectancy := 61;
     current_annual_expenses := 100;
     current_investments := 0;
     current_annual_income := 0;
     risk_profile := "moderate";
     dependents := "self_spouse";
     inflation_rate := 6 # 100 |}.

(** The flag scenario: expenses above a known income. *)
Definition flag_inputs : RetirementInputs :=
  {| current_age := 35;
     retirement_age := 60;
     life_expectancy := 85;
     current_annual_expenses := 800000;
     current_investments := 500000;
     current_annual_income := 600000;
     risk_profile := "moderate";
     dependents := "self_spouse";
     inflation_rate := 6 # 100 |}.

(** The flag scenario with the income not provided. *)
Definition flag_inputs_no_income : RetirementInputs :=
  {| current_age := 35;
     retirement_age := 60;
     life_expectancy := 85;
     current_annual_expenses := 800000;
     current_investments := 500000;
     current_annual_income := 0;
     risk_profile := "moderate";
     dependents := "self_spouse";
     inflation_rate := 6 # 100 |}.





(** Two input records that differ at most in [retirement_age]. *)
Definition same_but_retirement_age (a b : RetirementInputs) : Prop :=
  current_age a = current_age b /\
  life_expectancy a = life_expectancy b /\
  current_annual_expenses a = current_annual_expenses b /\
  current_investments a = current_investments b /\
  current_annual_income a = current_annual_income b /\
  risk_profile a = risk_profile b /\
  dependents a = dependents b /\
  inflation_rate a = inflation_rate b.



(** ** Display of amounts *)

Module PyFormat.

(** The characters of a string in reverse order. *)
Definition rev (s : string) : string :=
  string_of_list_ascii (List.rev (list_ascii_of_string s)).

(** The thousands separator of the format option [,], on the digits read
    from the right: a comma before every fourth, seventh, ... digit. *)
Fixpoint group_from_right (digits : string) (seen : nat) : string :=
  match digits with
  | EmptyString => EmptyString
  | String c digits' =>
      match seen with
      | 3%nat => String "," (String c (group_from_right digits' 1))
      | _ => String c (group_from_right digits' (S seen))
      end
  end.

(** The digits of an integer that is not negative, grouped in threes. *)
Definition group (digits : string) : string :=
  rev (group_from_right (rev digits) 0).

(** [format(x, ",.0f")]: the sign of [x], then its magnitude rounded to an
    integer, grouped in threes. *)
Definition format_comma_0f (x : Q) : string :=
  let body := group (Py.str_int (Py.round (Qabs x))) in
  if Py.ltb x 0 then String "-" body else body.

(** Two decimal digits of a number of hundredths below 100. *)
Definition two_digits (n : Z) : string :=
  if (n <? 10)%Z then String "0" (Py.str_int n) else Py.str_int n.

(** [format(x, ".2f")]: the sign of [x], then its magnitude rounded to
    hundredths, with two decimals. *)
Definition format_2f (x : Q) : string :=
  let hundredths := Py.round (Qabs x * 100) in
  let body :=
    (Py.str_int (hundredths / 100) ++ "." ++ two_digits (hundredths mod 100))%string in
  if Py.ltb x 0 then String "-" body else body.

End PyFormat.

(** The default currency symbol, the rupee sign, as its UTF-8 bytes. *)
Definition rupee : string :=
  String (ascii_of_nat 226) (String (ascii_of_nat 130)
    (String (ascii_of_nat 185) EmptyString)).

Definition format_currency (amount : Q) (currency_symbol : string) : result string :=
  if Py.leb 10000000 amount then
    x <- Py.truediv amount 10000000 ;;
    Ok (currency_symbol ++ PyFormat.format_2f x ++ " Cr")%string
  else if Py.leb 100000 amount then
    x <- Py.truediv amount 100000 ;;
    Ok (currency_symbol ++ PyFormat.format_2f x ++ " L")%string
  else
    Ok (currency_symbol ++ PyFormat.format_comma_0f amount)%string.

(** ** Reference quantities *)



(** ** Relations between input records and between results *)







(** ** What-if tables *)

(** The candidate retirement ages of both what-if tables. *)
Definition whatif_ages : list Z := [55; 58; 60; 62; 65]%Z.

(** A row of the sheet "What-If Scenarios" of [generate_excel_plan]. *)
Record WhatIfRow : Type := mkRow {
  row_retirement_age : Z;
  row_years_to_retirement : Z;
  row_retirement_duration : Z;
  row_corpus_required : Q;
  row_monthly_sip : Q
}.

(** The loop of [generate_excel_plan] that fills [whatif_data]: one row for
    each candidate age above the current age, in the order of the
    candidates; [round(x, 0)] is [round] kept as a float. *)
Fixpoint excel_whatif_data (inputs : RetirementInputs) (ages : list Z)
    : result (list WhatIfRow) :=
  match ages with
  | [] => Ok []
  | age :: ages' =>
      if (current_age inputs <? age)%Z then
        scenario <- calculate_whatif_scenario inputs age ;;
        rows <- excel_whatif_data inputs ages' ;;
        Ok ({| row_retirement_age := age;
               row_years_to_retirement := years_to_retirement scenario;
               row_retirement_duration := retirement_duration scenario;
               row_corpus_required := inject_Z (Py.round (corpus_required scenario));
               row_monthly_sip := monthly_savings_rounded scenario |} :: rows)
      else excel_whatif_data inputs ages'
  end.

(** The loop of [display_whatif_scenarios] that fills [scenarios]: one entry
    (age, result) for each candidate age above the current age and different
    from the base retirement age. *)
Fixpoint display_scenarios (inputs : RetirementInputs) (ages : list Z)
    : result (list (Z * RetirementResult)) :=
  match ages with
  | [] => Ok []
  | age :: ages' =>
      if (current_age inputs <? age)%Z && negb (age =? retirement_age inputs)%Z then
        scenario <- calculate_whatif_scenario inputs age ;;
        rest <- display_scenarios inputs ages' ;;
        Ok ((age, scenario) :: rest)
      else display_scenarios inputs ages'
  end.

(** The entries that [display_whatif_scenarios] renders: [scenarios[:3]]. *)
Definition displayed_scenarios (inputs : RetirementInputs)
    : result (list (Z * RetirementResult)) :=
  scenarios <- display_scenarios inputs whatif_ages ;;
  Ok (firstn 3 scenarios).

(** * Properties *)

(** ** Worked scenarios *)

Example rate_of_profiles :
  get_return_rate "conservative" = 8 # 100 /\
  get_return_rate "Balanced" = 12 # 100 /\
  get_return_rate "AGGRESSIVE" = 15 # 100 /\
  get_return_rate "unknown" = 12 # 100.
Proof. repeat split. Qed.

Example round_ties_to_even :
  Py.round (1 # 2) = 0%Z /\ Py.round (3 # 2) = 2%Z /\ Py.round (5 # 2) = 2%Z /\
  Py.round (- (3) # 2) = (- 2)%Z /\ Py.round (249 # 100) = 2%Z.
Proof. repeat split. Qed.

Example clean_figures :
  round_to_clean_figure 250 to_nearest_default = Ok 0 /\
  round_to_clean_figure 750 to_nearest_default = Ok 1000 /\
  round_to_clean_figure 12552 to_nearest_default = Ok 12500 /\
  round_to_clean_figure 50000 to_nearest_default = Ok 50000 /\
  round_to_clean_figure 50400 to_nearest_default = Ok 50000 /\
  round_to_clean_figure 50600 to_nearest_default = Ok 51000 /\
  round_to_clean_figure (- (5)) to_nearest_default = Ok 0.
Proof. repeat split. Qed.

Example future_value_zero_horizon :
  calculate_future_value 600000 (6 # 100) 0 = Ok 600000.
Proof. reflexivity. Qed.

(** The worked scenario: 35 now, retiring at 60, life expectancy 85. *)
Example self_test_plan :
  exists res,
    calculate_retirement_plan test_inputs = Ok res /\
    years_to_retirement res = 25%Z /\
    retirement_duration res = 25%Z /\
    expected_return_rate res = 12 # 100 /\
    Qfloor (future_annual_expenses res) = 2575122%Z /\
    Qfloor (corpus_required res) = 32083363%Z /\
    Qfloor (future_investment_value res) = 8500032%Z /\
    Qfloor (corpus_gap res) = 23583331%Z /\
    Qfloor (monthly_savings_required res) = 12552%Z /\
    monthly_savings_rounded res = 12500 /\
    income_expense_flag res = false /\
    nth 0 (assumptions res) EmptyString
    = "Inflation rate: 6% per annum (locked)"%string.
Proof.
  eexists. split; [vm_compute; reflexivity |].
  repeat split; vm_compute; reflexivity.
Qed.

(** The flag scenario: the flag is raised and the figures are those of the
    same record without an income. *)
Example flag_plan :
  exists res res',
    calculate_retirement_plan flag_inputs = Ok res /\
    calculate_retirement_plan flag_inputs_no_income = Ok res' /\
    income_expense_flag res = true /\
    income_expense_flag res' = false /\
    corpus_required res = corpus_required res' /\
    monthly_savings_rounded res = monthly_savings_rounded res'.
Proof.
  do 2 eexists. split; [vm_compute; reflexivity |].
  split; [vm_compute; reflexivity |].
  repeat split.
Qed.

(** ** Facts about the arithmetic *)

Module PyFacts.

Lemma ltb_spec (x y : Q) : reflect (x < y) (Py.ltb x y).
Proof.
  unfold Py.ltb. destruct (Qle_bool y x) eqn:E; constructor.
  - apply Qle_bool_iff in E. now apply Qle_not_lt.
  - apply Qnot_le_lt. intros H. apply Qle_bool_iff in H. congruence.
Qed.

Lemma leb_spec (x y : Q) : reflect (x <= y) (Py.leb x y).
Proof.
  unfold Py.leb. destruct (Qle_bool x y) eqn:E; constructor.
  - now apply Qle_bool_iff.
  - intros H. apply Qle_bool_iff in H. congruence.
Qed.

Lemma eqb_spec (x y : Q) : reflect (x == y) (Py.eqb x y).
Proof.
  unfold Py.eqb. destruct (Qeq_bool x y) eqn:E; constructor.
  - now apply Qeq_bool_iff.
  - now apply Qeq_bool_neq.
Qed.






Lemma truediv_ok (a b : Q) : ~ b == 0 -> Py.truediv a b = Ok (a / b).
Proof.
  intros H. unfold Py.truediv. now destruct (eqb_spec b 0).
Qed.

Lemma truediv_zero (a b : Q) : b == 0 -> Py.truediv a b = Raise ZeroDivisionError.
Proof.
  intros H. unfold Py.truediv. now destruct (eqb_spec b 0).
Qed.


End PyFacts.

Import PyFacts.

(** ** Corpus sizing *)





Lemma corpus_zero_denominator (pmt r g : Q) (n : Z) :
  (0 < n)%Z -> 1 + r == 0 ->
  calculate_corpus_for_retirement pmt r g n = Raise ZeroDivisionError.
Proof.
  intros Hn Hr. unfold calculate_corpus_for_retirement.
  destruct (Z.leb_spec n 0); [lia |].
  destruct (Py.ltb (Qabs (r - g)) (1 # 10000)); now rewrite truediv_zero.
Qed.





(** ** Powers and the number 1 *)



(** ** Contribution sizing *)

Lemma inject_Z_nonzero (m : Z) : (m <> 0)%Z -> ~ inject_Z m == 0.
Proof.
  intros H E. apply H. unfold Qeq in E. cbn in E. lia.
Qed.








(** ** Rounding *)

Lemma round_range (x : Q) : (Qfloor x <= Py.round x <= Qfloor x + 1)%Z.
Proof.
  unfold Py.round.
  destruct (Py.ltb _ _); [lia |].
  destruct (Py.ltb _ _); [lia |].
  destruct (Z.even _); lia.
Qed.

Lemma round_half (x : Q) :
  inject_Z (Py.round x) - (1 # 2) <= x <= inject_Z (Py.round x) + (1 # 2).
Proof.
  pose proof (Qfloor_le x) as Hlo. pose proof (Qlt_floor x) as Hhi.
  rewrite inject_Z_plus in Hhi. change (inject_Z 1) with 1 in Hhi.
  unfold Py.round.
  destruct (ltb_spec (x - inject_Z (Qfloor x)) (1 # 2)); [lra |].
  destruct (ltb_spec (1 # 2) (x - inject_Z (Qfloor x))).
  - rewrite inject_Z_plus. change (inject_Z 1) with 1. lra.
  - destruct (Z.even (Qfloor x)); [lra |].
    rewrite inject_Z_plus. change (inject_Z 1) with 1. lra.
Qed.

Lemma round_inject_Z (z : Z) : Py.round (inject_Z z) = z.
Proof.
  unfold Py.round. rewrite Qfloor_Z.
  destruct (ltb_spec (inject_Z z - inject_Z z) (1 # 2)); [reflexivity | lra].
Qed.

Lemma round_mono (x y : Q) : x <= y -> (Py.round x <= Py.round y)%Z.
Proof.
  intros Hxy.
  pose proof (Qfloor_resp_le x y Hxy) as Hf.
  pose proof (round_range x) as Hx. pose proof (round_range y) as Hy.
  destruct (Z.eq_dec (Qfloor x) (Qfloor y)) as [E | NE]; [| lia].
  clear Hx Hy Hf. unfold Py.round. rewrite E.
  destruct (ltb_spec (x - inject_Z (Qfloor y)) (1 # 2));
    destruct (ltb_spec (1 # 2) (x - inject_Z (Qfloor y)));
    destruct (ltb_spec (y - inject_Z (Qfloor y)) (1 # 2));
    destruct (ltb_spec (1 # 2) (y - inject_Z (Qfloor y)));
    destruct (Z.even (Qfloor y)); try lia; exfalso; lra.
Qed.

Lemma round_le_int (x : Q) (z : Z) : x <= inject_Z z -> (Py.round x <= z)%Z.
Proof.
  intros H. rewrite <- (round_inject_Z z). now apply round_mono.
Qed.

Lemma round_ge_int (x : Q) (z : Z) : inject_Z z <= x -> (z <= Py.round x)%Z.
Proof.
  intros H. rewrite <- (round_inject_Z z) at 1. now apply round_mono.
Qed.

Lemma inject_Z_le (a b : Z) : (a <= b)%Z -> inject_Z a <= inject_Z b.
Proof.
  intros H. now rewrite <- Zle_Qle.
Qed.


Lemma clean_figure_nonpositive (amount : Q) (to_nearest : Z) :
  amount <= 0 -> round_to_clean_figure amount to_nearest = Ok 0.
Proof.
  intros H. unfold round_to_clean_figure. now destruct (leb_spec amount 0).
Qed.

Lemma clean_figure_small (amount : Q) :
  0 < amount -> amount <= 50000 ->
  round_to_clean_figure amount to_nearest_default
  = Ok (inject_Z (Py.round (amount / 500) * 500)).
Proof.
  intros H0 H1. unfold round_to_clean_figure, to_nearest_default.
  destruct (leb_spec amount 0); [lra |].
  destruct (ltb_spec 50000 amount); [lra |].
  now rewrite truediv_ok by discriminate.
Qed.

Lemma clean_figure_large (amount : Q) :
  50000 < amount ->
  round_to_clean_figure amount to_nearest_default
  = Ok (inject_Z (Py.round (amount / 1000) * 1000)).
Proof.
  intros H1. unfold round_to_clean_figure, to_nearest_default.
  destruct (leb_spec amount 0); [lra |].
  destruct (ltb_spec 50000 amount); [| contradiction].
  now rewrite truediv_ok by discriminate.
Qed.


(** ** Rate resolution *)



(** ** Future value *)




(** ** The contribution at a positive rate *)







Lemma clean_figure_total (amount : Q) :
  exists rounded,
    round_to_clean_figure amount to_nearest_default = Ok rounded /\ 0 <= rounded.
Proof.
  destruct (Qlt_le_dec 0 amount) as [H0 | H0].
  - destruct (Qlt_le_dec 50000 amount) as [H1 | H1].
    + eexists. split; [now apply clean_figure_large |].
      change 0 with (inject_Z 0). apply inject_Z_le.
      assert (0 <= Py.round (amount / 1000))%Z; [| lia].
      apply round_ge_int. change (inject_Z 0) with 0.
      apply Qle_shift_div_l; [reflexivity | lra].
    + eexists. split; [now apply clean_figure_small |].
      change 0 with (inject_Z 0). apply inject_Z_le.
      assert (0 <= Py.round (amount / 500))%Z; [| lia].
      apply round_ge_int. change (inject_Z 0) with 0.
      apply Qle_shift_div_l; [reflexivity | lra].
  - exists 0. split; [now apply clean_figure_nonpositive | lra].
Qed.

(** ** The pipeline *)


(** ** Degenerate horizons *)





(** ** The rounding policy *)

Lemma clean_figure_small_bound (amount : Q) :
  amount <= 50000 -> (Py.round (amount / 500) * 500 <= 50000)%Z.
Proof.
  intros H.
  assert (Py.round (amount / 500) <= 100)%Z; [| lia].
  apply round_le_int. change (inject_Z 100) with 100.
  apply Qle_shift_div_r; [reflexivity | lra].
Qed.

Lemma clean_figure_large_bound (amount : Q) :
  50000 < amount -> (50000 <= Py.round (amount / 1000) * 1000)%Z.
Proof.
  intros H.
  assert (50 <= Py.round (amount / 1000))%Z; [| lia].
  apply round_ge_int. change (inject_Z 50) with 50.
  apply Qle_shift_div_l; [reflexivity | lra].
Qed.



(** ** What-if scenarios *)

Lemma whatif_same_but_retirement_age (base inputs : RetirementInputs) :
  same_but_retirement_age base inputs ->
  calculate_whatif_scenario base (retirement_age inputs)
  = calculate_retirement_plan inputs.
Proof.
  intros (H1 & H2 & H3 & H4 & H5 & H6 & H7 & H8).
  unfold calculate_whatif_scenario.
  destruct inputs as [ca ra le ex iv inc rp dp ir].
  cbn [current_age retirement_age life_expectancy current_annual_expenses
       current_investments current_annual_income risk_profile dependents
       inflation_rate] in *.
  now subst.
Qed.

Lemma whatif_own_retirement_age (base : RetirementInputs) :
  calculate_whatif_scenario base (retirement_age base)
  = calculate_retirement_plan base.
Proof.
  apply whatif_same_but_retirement_age. now repeat split.
Qed.

(** C6: the what-if result for a replacement retirement age is the plan of
    the input record that equals the base in every field except
    [retirement_age]; with the base's own retirement age it is the base
    plan. *)
Theorem calculate_whatif_scenario_is_plan (base : RetirementInputs) (a : Z) :
  (forall inputs,
     same_but_retirement_age base inputs -> retirement_age inputs = a ->
     calculate_whatif_scenario base a = calculate_retirement_plan inputs) /\
  calculate_whatif_scenario base (retirement_age base)
  = calculate_retirement_plan base.
Proof.
  split.
  - intros inputs Hsame <-. now apply whatif_same_but_retirement_age.
  - apply whatif_own_retirement_age.
Qed.

Lemma calculate_whatif_scenario_is_plan_witness :
  calculate_whatif_scenario flag_inputs 60 = calculate_retirement_plan flag_inputs.
Proof.
  destruct (calculate_whatif_scenario_is_plan flag_inputs 60) as [H _].
  apply H; [repeat split | reflexivity].
Defined.

(** ** The income flag *)



(** ** Floors at zero *)


(** ** Small contributions *)

Lemma round_below_half (x : Q) : 0 <= x -> x < 1 # 2 -> Py.round x = 0%Z.
Proof.
  intros H0 H1.
  pose proof (round_ge_int x 0 H0) as Hlo.
  pose proof (round_half x) as [Hhi _].
  assert (Hlt : inject_Z (Py.round x) < inject_Z 1).
  { change (inject_Z 1) with 1. lra. }
  rewrite <- Zlt_Qlt in Hlt. lia.
Qed.

(** C9: every amount strictly between 0 and 250 is rounded to 0; hence the
    plan can report rounded monthly savings of 0 while the required monthly
    savings are strictly positive. *)
Theorem small_contribution_rounds_to_zero :
  (forall amount, 0 < amount -> amount < 250 ->
     round_to_clean_figure amount to_nearest_default = Ok 0) /\
  (exists inputs res,
     calculate_retirement_plan inputs = Ok res /\
     0 < monthly_savings_required res /\
     monthly_savings_rounded res = 0).
Proof.
  split.
  - intros amount H0 H1.
    rewrite clean_figure_small by lra.
    rewrite round_below_half; [reflexivity | |].
    + apply Qle_shift_div_l; [reflexivity | lra].
    + apply Qlt_shift_div_r; [reflexivity | lra].
  - exists small_need_inputs. eexists.
    split; [vm_compute; reflexivity |].
    split; vm_compute; reflexivity.
Qed.

Lemma small_contribution_rounds_to_zero_witness :
  round_to_clean_figure 249 to_nearest_default = Ok 0.
Proof.
  destruct small_contribution_rounds_to_zero as [H _].
  apply H; reflexivity.
Defined.

(** ** The contribution formula inside the plan *)



(** ** Retiring later *)










Lemma clean_figure_mono (x y vx vy : Q) :
  x <= y ->
  round_to_clean_figure x to_nearest_default = Ok vx ->
  round_to_clean_figure y to_nearest_default = Ok vy ->
  vx <= vy.
Proof.
  intros Hxy Hx Hy.
  destruct (Qlt_le_dec 0 x) as [Hx0 | Hx0].
  - destruct (Qlt_le_dec 50000 x) as [Hx1 | Hx1].
    + rewrite clean_figure_large in Hx by assumption.
      rewrite clean_figure_large in Hy by lra.
      injection Hx as <-. injection Hy as <-.
      apply inject_Z_le.
      assert (Py.round (x / 1000) <= Py.round (y / 1000))%Z; [| lia].
      apply round_mono. apply Qmult_le_compat_r; [assumption | discriminate].
    + rewrite clean_figure_small in Hx by assumption. injection Hx as <-.
      destruct (Qlt_le_dec 50000 y) as [Hy1 | Hy1].
      * rewrite clean_figure_large in Hy by assumption. injection Hy as <-.
        apply inject_Z_le.
        pose proof (clean_figure_small_bound x Hx1).
        pose proof (clean_figure_large_bound y Hy1). lia.
      * rewrite clean_figure_small in Hy by lra. injection Hy as <-.
        apply inject_Z_le.
        assert (Py.round (x / 500) <= Py.round (y / 500))%Z; [| lia].
        apply round_mono. apply Qmult_le_compat_r; [assumption | discriminate].
  - rewrite clean_figure_nonpositive in Hx by assumption. injection Hx as <-.
    destruct (clean_figure_total y) as (v & Hv & Hpos).
    rewrite Hv in Hy. now injection Hy as <-.
Qed.







(** * Further properties of the calculator *)

(** ** Future value *)






(** ** The corpus as a discounted sum *)







(** ** The contribution reaches its target *)





(** ** The corpus as a function of the duration and of the first payment *)














(** ** More on the rounding policy *)

Lemma round_comp (x y : Q) : x == y -> Py.round x = Py.round y.
Proof.
  intros E.
  assert (H1 : (Py.round x <= Py.round y)%Z) by (apply round_mono; lra).
  assert (H2 : (Py.round y <= Py.round x)%Z) by (apply round_mono; lra).
  lia.
Qed.

Lemma round_of_multiple (k : Z) (u : positive) :
  Py.round (inject_Z (k * Z.pos u) / inject_Z (Z.pos u)) = k.
Proof.
  rewrite <- (round_inject_Z k) at 2. apply round_comp.
  rewrite inject_Z_mult. field. discriminate.
Qed.

Lemma clean_figure_of_multiple_500 (k : Z) :
  (0 <= k <= 100)%Z ->
  round_to_clean_figure (inject_Z (k * 500)) to_nearest_default
  = Ok (inject_Z (k * 500)).
Proof.
  intros Hk. destruct (Z.eq_dec k 0) as [-> | Hk0]; [reflexivity |].
  rewrite clean_figure_small.
  - do 3 f_equal. exact (round_of_multiple k 500).
  - change 0 with (inject_Z 0). rewrite <- Zlt_Qlt. lia.
  - change 50000 with (inject_Z 50000). apply inject_Z_le. lia.
Qed.

Lemma clean_figure_of_multiple_1000 (k : Z) :
  (50 <= k)%Z ->
  round_to_clean_figure (inject_Z (k * 1000)) to_nearest_default
  = Ok (inject_Z (k * 1000)).
Proof.
  intros Hk. destruct (Z.eq_dec k 50) as [-> | Hk0]; [reflexivity |].
  rewrite clean_figure_large.
  - do 3 f_equal. exact (round_of_multiple k 1000).
  - change 50000 with (inject_Z 50000). rewrite <- Zlt_Qlt. lia.
Qed.

(** X8: a rounded figure is a fixed point of the rounding policy: rounding
    it again returns it unchanged. *)
Theorem clean_figure_idempotent (amount : Q) :
  exists v,
    round_to_clean_figure amount to_nearest_default = Ok v /\
    round_to_clean_figure v to_nearest_default = Ok v.
Proof.
  destruct (Qlt_le_dec 0 amount) as [H0 | H0].
  - destruct (Qlt_le_dec 50000 amount) as [H1 | H1].
    + rewrite clean_figure_large by assumption.
      eexists. split; [reflexivity |].
      apply clean_figure_of_multiple_1000.
      apply round_ge_int. change (inject_Z 50) with 50.
      apply Qle_shift_div_l; [reflexivity | lra].
    + rewrite clean_figure_small by assumption.
      eexists. split; [reflexivity |].
      apply clean_figure_of_multiple_500. split.
      * apply round_ge_int. change (inject_Z 0) with 0.
        apply Qle_shift_div_l; [reflexivity | lra].
      * apply round_le_int. change (inject_Z 100) with 100.
        apply Qle_shift_div_r; [reflexivity | lra].
  - exists 0. rewrite clean_figure_nonpositive by assumption.
    split; reflexivity.
Qed.




(** X10: the rounding policy preserves order: a larger amount never gets the
    smaller rounded figure, also across the change of unit at 50000. *)
Theorem clean_figure_preserves_order (x y : Q) :
  x <= y ->
  exists vx vy,
    round_to_clean_figure x to_nearest_default = Ok vx /\
    round_to_clean_figure y to_nearest_default = Ok vy /\
    vx <= vy.
Proof.
  intros Hxy.
  destruct (clean_figure_total x) as (vx & Hx & _).
  destruct (clean_figure_total y) as (vy & Hy & _).
  exists vx, vy. split; [exact Hx |]. split; [exact Hy |].
  exact (clean_figure_mono x y vx vy Hxy Hx Hy).
Qed.

Lemma clean_figure_preserves_order_witness :
  exists vx vy,
    round_to_clean_figure 49900 to_nearest_default = Ok vx /\
    round_to_clean_figure 50400 to_nearest_default = Ok vy /\
    vx <= vy.
Proof.
  apply clean_figure_preserves_order. discriminate.
Defined.

(** X11: with an explicit rounding unit, the function raises exactly when
    the unit is 0 and the amount lies in (0, 50000]; above 50000 the unit
    passed is ignored. *)
Theorem clean_figure_unit_behaviour (amount : Q) (to_nearest : Z) :
  (round_to_clean_figure amount to_nearest = Raise ZeroDivisionError <->
   0 < amount /\ amount <= 50000 /\ to_nearest = 0%Z) /\
  (50000 < amount ->
   round_to_clean_figure amount to_nearest
   = round_to_clean_figure amount to_nearest_default).
Proof.
  unfold round_to_clean_figure. split.
  - destruct (leb_spec amount 0) as [H0 | H0].
    + split; [discriminate | intros (? & _); lra].
    + apply Qnot_le_lt in H0.
      destruct (ltb_spec 50000 amount) as [H1 | H1].
      * rewrite truediv_ok by discriminate.
        split; [discriminate | intros (_ & ? & _); lra].
      * apply Qnot_lt_le in H1.
        destruct (Z.eq_dec to_nearest 0) as [-> | Hu].
        -- rewrite truediv_zero by reflexivity. now split.
        -- rewrite truediv_ok by now apply inject_Z_nonzero.
           split; [discriminate | intros (_ & _ & ?); contradiction].
  - intros H1.
    destruct (leb_spec amount 0); [lra |].
    destruct (ltb_spec 50000 amount); [reflexivity | contradiction].
Qed.

(** ** Rate resolution and letter case *)

Lemma lower_ascii_idempotent (c : ascii) :
  Py.lower_ascii (Py.lower_ascii c) = Py.lower_ascii c.
Proof.
  destruct c as [[] [] [] [] [] [] [] []]; reflexivity.
Qed.

Lemma lower_idempotent (s : string) : Py.lower (Py.lower s) = Py.lower s.
Proof.
  induction s as [| c s IH]; [reflexivity |].
  cbn [Py.lower]. now rewrite lower_ascii_idempotent, IH.
Qed.

(** X12: rate resolution does not see the letter case: lowering the profile
    string beforehand, as the caller does, gives the same rate. *)
Theorem get_return_rate_ignores_case (s : string) :
  get_return_rate (Py.lower s) = get_return_rate s.
Proof.
  unfold get_return_rate. now rewrite lower_idempotent.
Qed.

(** ** The plan as a function of its amounts *)



















(** ** The what-if tables *)










Example excel_sheet_of_self_test :
  exists rows,
    excel_whatif_data test_inputs whatif_ages = Ok rows /\
    map row_retirement_age rows = [55; 58; 60; 62; 65]%Z /\
    map row_years_to_retirement rows = [20; 23; 25; 27; 30]%Z /\
    map row_corpus_required rows
    = [25923090; 29559627; 32083363; 34631604; 38339334] /\
    map row_monthly_sip rows = [21500; 15500; 12500; 10000; 6500].
Proof.
  eexists. split; [vm_compute; reflexivity |].
  repeat split.
Qed.




Example displayed_scenarios_of_self_test :
  exists shown,
    displayed_scenarios test_inputs = Ok shown /\
    map fst shown = [55; 58; 62]%Z /\
    map (fun entry => monthly_savings_rounded (snd entry)) shown
    = [21500; 15500; 10000].
Proof.
  eexists. split; [vm_compute; reflexivity |].
  repeat split.
Qed.

(** ** Display of amounts *)

Example format_currency_samples :
  format_currency 32083363 "Rs." = Ok "Rs.3.21 Cr"%string /\
  format_currency 23583331 "Rs." = Ok "Rs.2.36 Cr"%string /\
  format_currency 2575122 "Rs." = Ok "Rs.25.75 L"%string /\
  format_currency 100000 "Rs." = Ok "Rs.1.00 L"%string /\
  format_currency 12500 "Rs." = Ok "Rs.12,500"%string /\
  format_currency 999 "Rs." = Ok "Rs.999"%string /\
  format_currency 0 "Rs." = Ok "Rs.0"%string /\
  format_currency (- (1234567)) "Rs." = Ok "Rs.-1,234,567"%string /\
  format_currency (- (1 # 4)) "Rs." = Ok "Rs.-0"%string /\
  format_currency 1234567890123 rupee
  = Ok (rupee ++ "123456.79 Cr")%string.
Proof. repeat split. Qed.

Lemma round_between (x : Q) (lo hi : Q) (z : Z) :
  Py.round lo = z -> Py.round hi = z -> lo <= x -> x <= hi -> Py.round x = z.
Proof.
  intros Hlo Hhi H1 H2.
  pose proof (round_mono lo x H1). pose proof (round_mono x hi H2). lia.
Qed.

(** X23: the display switches notation on the amount itself but prints the
    rounded amount, so just below a threshold it shows the threshold value
    in the smaller notation: every amount from 99999.5 up to, but not
    including, one lakh is shown as "100,000", and every amount from 9999950
    up to, but not including, one crore as "100.00 L". *)
Theorem format_currency_below_thresholds (amount : Q) (currency_symbol : string) :
  ((99999 # 1) + (1 # 2) <= amount -> amount < 100000 ->
   format_currency amount currency_symbol
   = Ok (currency_symbol ++ "100,000")%string) /\
  (9999950 <= amount -> amount < 10000000 ->
   format_currency amount currency_symbol
   = Ok (currency_symbol ++ "100.00 L")%string).
Proof.
  unfold format_currency. split.
  - intros Hlo Hhi.
    destruct (leb_spec 10000000 amount); [lra |].
    destruct (leb_spec 100000 amount); [lra |].
    unfold PyFormat.format_comma_0f.
    destruct (ltb_spec amount 0); [lra |].
    assert (E : Py.round (Qabs amount) = 100000%Z).
    { rewrite (round_comp (Qabs amount) amount) by (apply Qabs_pos; lra).
      apply (round_between amount ((99999 # 1) + (1 # 2)) 100000);
        [reflexivity | reflexivity | assumption | lra]. }
    rewrite E. reflexivity.
  - intros Hlo Hhi.
    destruct (leb_spec 10000000 amount); [lra |].
    destruct (leb_spec 100000 amount); [| lra].
    rewrite truediv_ok by discriminate. cbn [bind].
    unfold PyFormat.format_2f.
    assert (Hx0 : 0 <= amount / 100000) by (apply Qle_shift_div_l; [reflexivity | lra]).
    destruct (ltb_spec (amount / 100000) 0); [lra |].
    assert (E : Py.round (Qabs (amount / 100000) * 100) = 10000%Z).
    { assert (Ex : Qabs (amount / 100000) * 100 == amount / 1000).
      { rewrite Qabs_pos by assumption. field. }
      rewrite (round_comp _ _ Ex).
      apply (round_between (amount / 1000) (999995 # 100) 10000);
        [reflexivity | reflexivity | |].
      - apply Qle_shift_div_l; [reflexivity | lra].
      - apply Qle_shift_div_r; [reflexivity | lra]. }
    rewrite E. reflexivity.
Qed.

Lemma format_currency_below_thresholds_witness :
  format_currency (999996 # 10) rupee = Ok (rupee ++ "100,000")%string /\
  format_currency 9999999 rupee = Ok (rupee ++ "100.00 L")%string.
Proof.
  destruct (format_currency_below_thresholds (999996 # 10) rupee) as [H1 _].
  destruct (format_currency_below_thresholds 9999999 rupee) as [_ H2].
  split; [apply H1 | apply H2]; first [reflexivity | discriminate].
Defined.


